(** * Loader.cpp: shader loading, compilation and link reporting

    A shallow embedding of [src/Loader.cpp].  The program is one thread of
    control that talks to three collaborators: the file system (through
    [std::ifstream]), the windowing and graphics libraries (GLFW, GLEW,
    OpenGL) and the two console streams.  The libraries are an interface
    ([Backend]) whose answers the program cannot predict; every call and
    every write to a stream is recorded, in order, in a trace of [Event]s,
    and the theorems speak about the trace and the outcome of a run. *)

From Equations Require Import Equations.
From Equations.Prop Require Import Logic.
From Stdlib Require Import ZArith String Ascii List Lia DecimalString.
From stdpp Require Import base option list gmap strings.
Import ListNotations.

Local Open Scope Z_scope.
Local Open Scope string_scope.

(** ** Text *)

(** The line terminator, ["\n"] in the source. *)
Definition LF : ascii := Ascii.ascii_of_nat 10.
Definition endl : string := String LF EmptyString.

(** ** The source loader (Loader.cpp, lines 14-23) *)

Module Loader.

(** [std::getline(in, string)] on a stream in good state whose next
    character exists: characters are moved to the line until the
    delimiter, which is extracted and dropped, or until the end of the
    file.  The result is the line and what is left in the stream. *)
Fixpoint extract_line (s : string) : string * string :=
  match s with
  | EmptyString => (EmptyString, EmptyString)
  | String c rest =>
      if Ascii.eqb c LF then (EmptyString, rest)
      else let (line, rest') := extract_line rest in (String c line, rest')
  end.

(** [std::getline] as the loop condition sees it: with nothing left to
    extract the fail bit is set and the stream converts to [false]. *)
Definition getline (s : string) : option (string * string) :=
  match s with
  | EmptyString => None
  | String _ _ => Some (extract_line s)
  end.

(** [while (std::getline(in, string)) result.emplace_back(string + "\n");] *)
Equations? read_lines (s : string) : list string by wf (String.length s) lt :=
  read_lines s with inspect (getline s) => {
    | exist _ None _ => [];
    | exist _ (Some p) E => (fst p +:+ endl) :: read_lines (snd p) }.
Proof.
  destruct s as [|c s]; simpl in E; [discriminate|].
  injection E as <-.
  destruct (Ascii.eqb c LF); simpl; [lia|].
  assert (forall t,
             (String.length (snd (extract_line t)) <= String.length t)%nat)
    as Hle.
  { induction t as [|d t IH]; simpl; [lia|].
    destruct (Ascii.eqb d LF); [simpl; lia|].
    destruct (extract_line t); simpl in *; lia. }
  specialize (Hle s). destruct (extract_line s); simpl in *; lia.
Qed.

Section WithFiles.

(** [ifstream_open name] is [None] when [in.is_open()] is false, and
    otherwise the characters the stream delivers. *)
Variable ifstream_open : string -> option string.

Definition readFileAsStdListOfStrings (fileName : string)
  : option (list string) :=
  match ifstream_open fileName with
  | None => None
  | Some content => Some (read_lines content)
  end.

End WithFiles.

End Loader.

(** ** Numbers as the streams print them *)

(** [static_cast<int>] of a [GLenum]: the 32-bit pattern read as signed. *)
Definition static_cast_int (z : Z) : Z :=
  (z + 2 ^ 31) mod 2 ^ 32 - 2 ^ 31.

(** [GLsizei(n)] of a [size_t]: the low 32 bits read as signed. *)
Definition GLsizei (n : nat) : Z := static_cast_int (Z.of_nat n).

(** [operator<<] of an [int]: signed decimal digits. *)
Definition show_int (z : Z) : string := NilZero.string_of_int (Z.to_int z).

(** [str.c_str()] read by a callee that was given no length: the
    characters before the first NUL. *)
Fixpoint c_str (s : string) : string :=
  match s with
  | EmptyString => EmptyString
  | String c rest =>
      if Ascii.eqb c Ascii.zero then EmptyString else String c (c_str rest)
  end.

(** ** The libraries the program calls *)

(** The [GLenum] arguments the program passes on without looking at them. *)
Inductive ShaderType := GL_VERTEX_SHADER | GL_FRAGMENT_SHADER.

Inductive Pname :=
| GL_MAX_VERTEX_UNIFORM_VECTORS
| GL_INFO_LOG_LENGTH
| GL_COMPILE_STATUS
| GL_LINK_STATUS.

(** Everything an observer of a run can see, in the order it happens:
    the calls into GLFW, GLEW and OpenGL with what they returned, and
    the writes to the two console streams.  Handles, pointers and
    integers are [Z]; [nullptr] is [0]. *)
Inductive Event :=
| GlfwInit (r : Z)
| GlfwCreateWindow (width height : Z) (title : string) (r : Z)
| GlfwMakeContextCurrent (window : Z)
| GlfwDestroyWindow (window : Z)
| GlfwTerminate
| GlewInit (r : Z)
| GlGetIntegerv (pname : Pname) (r : Z)
| GlGetError (r : Z)
| GlCreateShader (type : ShaderType) (r : Z)
| GlShaderSource (shader count : Z) (strings : list string)
| GlCompileShader (shader : Z)
| GlGetShaderiv (shader : Z) (pname : Pname) (r : Z)
| GlGetShaderInfoLog (shader bufSize : Z) (log : string)
| GlCreateProgram (r : Z)
| GlAttachShader (program shader : Z)
| GlLinkProgram (program : Z)
| GlGetProgramiv (program : Z) (pname : Pname) (r : Z)
| GlGetProgramInfoLog (program bufSize : Z) (log : string)
| GlDeleteShader (shader : Z)
| GlDeleteProgram (program : Z)
| Cout (s : string)
| Cerr (s : string).

(** The headers and entry points of GLFW, GLEW and OpenGL that
    Loader.cpp uses, over a state [GL] of the libraries that the program
    never inspects.  The error codes and [GLEW_OK] are the macros of
    [GL/glew.h]; the repository does not fix their values, so they are
    part of the interface.  [ifstream_open] is the file system as
    [std::ifstream] sees it. *)
Class Backend (GL : Type) : Type := {
  GL_NO_ERROR : Z;
  GL_INVALID_ENUM : Z;
  GL_INVALID_VALUE : Z;
  GL_INVALID_OPERATION : Z;
  GL_INVALID_FRAMEBUFFER_OPERATION : Z;
  GL_OUT_OF_MEMORY : Z;
  GL_STACK_UNDERFLOW : Z;
  GL_STACK_OVERFLOW : Z;
  GLEW_OK : Z;
  ifstream_open : string -> option string;
  glfwInit : GL -> Z * GL;
  glfwCreateWindow : Z -> Z -> string -> GL -> Z * GL;
  glfwMakeContextCurrent : Z -> GL -> GL;
  glfwDestroyWindow : Z -> GL -> GL;
  glfwTerminate : GL -> GL;
  glewInit : GL -> Z * GL;
  glGetIntegerv : Pname -> GL -> Z * GL;
  glGetError : GL -> Z * GL;
  glCreateShader : ShaderType -> GL -> Z * GL;
  glShaderSource : Z -> Z -> list string -> GL -> GL;
  glCompileShader : Z -> GL -> GL;
  glGetShaderiv : Z -> Pname -> GL -> Z * GL;
  glGetShaderInfoLog : Z -> Z -> GL -> string * GL;
  glCreateProgram : GL -> Z * GL;
  glAttachShader : Z -> Z -> GL -> GL;
  glLinkProgram : Z -> GL -> GL;
  glGetProgramiv : Z -> Pname -> GL -> Z * GL;
  glGetProgramInfoLog : Z -> Z -> GL -> string * GL;
  glDeleteShader : Z -> GL -> GL;
}.

(** ** Runs *)

Record World (GL : Type) := MkWorld { gl : GL; trace : list Event }.
Arguments MkWorld {GL} _ _.
Arguments gl {GL} _.
Arguments trace {GL} _.

(** A function either returns, or a failed [assert] aborts the process. *)
Inductive Outcome (GL A : Type) :=
| Ret (a : A) (w : World GL)
| Abort (w : World GL).
Arguments Ret {GL A} _ _.
Arguments Abort {GL A} _.

Definition final {GL A} (o : Outcome GL A) : World GL :=
  match o with Ret _ w => w | Abort w => w end.


(** The exit code of the process when [main] returns. *)
Definition exit_status {GL} (o : Outcome GL Z) : option Z :=
  match o with Ret code _ => Some code | Abort _ => None end.

Definition M (GL A : Type) : Type := World GL -> Outcome GL A.

Definition ret {GL A} (a : A) : M GL A := fun w => Ret a w.

Definition bind {GL A B} (m : M GL A) (k : A -> M GL B) : M GL B :=
  fun w => match m w with
           | Ret a w' => k a w'
           | Abort w' => Abort w'
           end.

Declare Scope run_scope.
Notation "'let*' x ':=' m 'in' k" := (bind m (fun x => k))
  (at level 10, x name, m at level 100, k at level 200) : run_scope.
Notation "m '>>' k" := (bind m (fun _ => k))
  (at level 100, k at level 200, right associativity) : run_scope.
Delimit Scope run_scope with run.
Local Open Scope run_scope.

(** The process at its start: nothing called, nothing written. *)
Definition init {GL} (g : GL) : World GL := MkWorld g [].

(** What has been written to [std::cout] and to [std::cerr]. *)
Fixpoint stdout (t : list Event) : string :=
  match t with
  | [] => EmptyString
  | Cout s :: t' => s +:+ stdout t'
  | _ :: t' => stdout t'
  end.

Fixpoint stderr (t : list Event) : string :=
  match t with
  | [] => EmptyString
  | Cerr s :: t' => s +:+ stderr t'
  | _ :: t' => stderr t'
  end.

Section Program.

Context {GL : Type} `{B : Backend GL}.

Definition emit (e : Event) : M GL unit :=
  fun w => Ret tt (MkWorld (gl w) (trace w ++ [e])).

(** A call that answers: the answer is recorded with the call. *)
Definition ask {A} (f : GL -> A * GL) (ev : A -> Event) : M GL A :=
  fun w => Ret (fst (f (gl w)))
               (MkWorld (snd (f (gl w))) (trace w ++ [ev (fst (f (gl w)))])).

(** A call made for its effect. *)
Definition tell (f : GL -> GL) (ev : Event) : M GL unit :=
  fun w => Ret tt (MkWorld (f (gl w)) (trace w ++ [ev])).

Definition cout (s : string) : M GL unit := emit (Cout s).
Definition cerr (s : string) : M GL unit := emit (Cerr s).

(** [assert(c)] of [<cassert>], compiled without [NDEBUG]. *)
Definition assert (c : bool) : M GL unit :=
  fun w => if c then Ret tt w else Abort w.

(** *** getErrorMessage (lines 25-54) *)

Definition errorStrings : gmap Z string :=
  list_to_map
    [ (GL_NO_ERROR, "No error has been recorded. THIS message is the error itself.");
      (GL_INVALID_ENUM, "An unacceptable value is specified for an enumerated argument.");
      (GL_INVALID_VALUE, "A numeric argument is out of range.");
      (GL_INVALID_OPERATION, "The specified operation is not allowed in the current state.");
      (GL_INVALID_FRAMEBUFFER_OPERATION, "The framebuffer object is not complete.");
      (GL_OUT_OF_MEMORY, "There is not enough memory left to execute the command.");
      (GL_STACK_UNDERFLOW, "An attempt has been made to perform an operation that would cause an internal stack to underflow.");
      (GL_STACK_OVERFLOW, "An attempt has been made to perform an operation that would cause an internal stack to overflow.") ].

(** The text the string stream holds for an error code other than
    [GL_NO_ERROR]. *)
Definition describe (error : Z) : string :=
  let ss := "OpenGL error: " +:+ show_int (static_cast_int error) +:+ endl in
  let ss := ss +:+ "Error string: " in
  let ss :=
    match errorStrings !! error with
    | None => ss +:+ "No description available. Incompatible OpenGL version?"
    | Some found => ss +:+ found
    end in
  ss +:+ endl.

Definition getErrorMessage : M GL string :=
  let* error := ask glGetError GlGetError in
  if (GL_NO_ERROR =? error)%Z then ret "" else ret (describe error).

(** *** error (lines 56-62) *)

Definition error : M GL bool :=
  let* message := getErrorMessage in
  if (String.length message =? 0)%nat then ret false
  else cerr message >> ret true.

(** [assert(!error());] *)
Definition assert_no_error : M GL unit :=
  let* e := error in assert (negb e).

(** *** compileShader (lines 64-88) *)

Definition compileShader (shader : Z) (source : list string) : M GL bool :=
  let vsSource := map c_str source in
  let vsLinesCount := length source in
  tell (glShaderSource shader (GLsizei vsLinesCount) vsSource)
       (GlShaderSource shader (GLsizei vsLinesCount) vsSource) >>
  assert_no_error >>
  tell (glCompileShader shader) (GlCompileShader shader) >>
  assert_no_error >>
  let* logLength := ask (glGetShaderiv shader GL_INFO_LOG_LENGTH)
                        (GlGetShaderiv shader GL_INFO_LOG_LENGTH) in
  (if (0 <? logLength)%Z then
     let* log := ask (glGetShaderInfoLog shader logLength)
                     (GlGetShaderInfoLog shader logLength) in
     cout "Log: " >> cout endl >>
     cout log
   else ret tt) >>
  let* compileStatus := ask (glGetShaderiv shader GL_COMPILE_STATUS)
                            (GlGetShaderiv shader GL_COMPILE_STATUS) in
  ret (negb (compileStatus =? 0)%Z).

(** *** main (lines 90-199) *)

Definition main : M GL Z :=
  (* Init *)
  let* ok := ask glfwInit GlfwInit in
  if (ok =? 0)%Z then
    cerr "Error: glfw init failed." >> cerr endl >>
    ret 3%Z
  else
  let* window := ask (glfwCreateWindow 300 200 "Shader test")
                     (GlfwCreateWindow 300 200 "Shader test") in
  if (window =? 0)%Z then
    cerr "Error: window is null." >> cerr endl >>
    tell glfwTerminate GlfwTerminate >>
    ret 1%Z
  else
  tell (glfwMakeContextCurrent window) (GlfwMakeContextCurrent window) >>
  let* glewOk := ask glewInit GlewInit in
  if negb (glewOk =? GLEW_OK)%Z then
    cerr "Error: glew not OK." >> cerr endl >>
    tell glfwTerminate GlfwTerminate >>
    ret 2%Z
  else
  (* Test max vectors *)
  let* maxVertexUniformVectors :=
    ask (glGetIntegerv GL_MAX_VERTEX_UNIFORM_VECTORS)
        (GlGetIntegerv GL_MAX_VERTEX_UNIFORM_VECTORS) in
  cout "Max vectors: " >> cout (show_int maxVertexUniformVectors) >>
  cout endl >>
  (* Load shader source *)
  cout "Loading shader sources..." >> cout endl >>
  let vertexSource :=
    Loader.readFileAsStdListOfStrings ifstream_open "Shader.vert" in
  let fragmentSource :=
    Loader.readFileAsStdListOfStrings ifstream_open "Shader.frag" in
  match vertexSource with
  | None =>
      cerr "Error: could not load vertex source." >> cerr endl >>
      ret 4%Z
  | Some vertexLines =>
  match fragmentSource with
  | None =>
      cerr "Error: could not load fragment source." >> cerr endl >>
      ret 5%Z
  | Some fragmentLines =>
  (* Create shader *)
  let* vs := ask (glCreateShader GL_VERTEX_SHADER)
                 (GlCreateShader GL_VERTEX_SHADER) in
  if (vs =? 0)%Z then
    cerr "Error: vertex shader is 0." >> cerr endl >>
    ret 2%Z
  else
  assert_no_error >>
  let* fs := ask (glCreateShader GL_FRAGMENT_SHADER)
                 (GlCreateShader GL_FRAGMENT_SHADER) in
  if (fs =? 0)%Z then
    cerr "Error: fragment shader is 0." >> cerr endl >>
    ret 2%Z
  else
  assert_no_error >>
  (* Compile shaders *)
  cout "Compiling vertex shader..." >> cout endl >>
  let* compiled := compileShader vs vertexLines in
  if negb compiled then
    cerr "Error: could not compile vertex shader." >> cerr endl >>
    ret 5%Z
  else
  cout "Compiling fragment shader..." >> cout endl >>
  let* compiled := compileShader fs fragmentLines in
  if negb compiled then
    cerr "Error: could not compile fragment shader." >> cerr endl >>
    ret 5%Z
  else
  (* Link program *)
  let* program := ask glCreateProgram GlCreateProgram in
  if (program =? 0)%Z then
    cerr "Error: program is 0." >> cerr endl >>
    ret 2%Z
  else
  assert_no_error >>
  tell (glAttachShader program vs) (GlAttachShader program vs) >>
  assert_no_error >>
  tell (glAttachShader program fs) (GlAttachShader program fs) >>
  assert_no_error >>
  tell (glLinkProgram program) (GlLinkProgram program) >>
  assert_no_error >>
  (* Get log *)
  let* logLength := ask (glGetProgramiv program GL_INFO_LOG_LENGTH)
                        (GlGetProgramiv program GL_INFO_LOG_LENGTH) in
  (if (0 <? logLength)%Z then
     let* log := ask (glGetProgramInfoLog program logLength)
                     (GlGetProgramInfoLog program logLength) in
     cout "Log: " >> cout endl >>
     cout log
   else ret tt) >>
  let* linkStatus := ask (glGetProgramiv program GL_LINK_STATUS)
                         (GlGetProgramiv program GL_LINK_STATUS) in
  if (linkStatus =? 0)%Z then
    cerr "Error: could not link." >> cerr endl >>
    ret 2%Z
  else
  assert_no_error >>
  tell (glDeleteShader vs) (GlDeleteShader vs) >>
  tell (glDeleteShader fs) (GlDeleteShader fs) >>
  (* Shutdown *)
  cout "Finishing..." >> cout endl >>
  tell (glDeleteShader program) (GlDeleteShader program) >>
  tell (glfwMakeContextCurrent 0) (GlfwMakeContextCurrent 0) >>
  tell (glfwDestroyWindow window) (GlfwDestroyWindow window) >>
  tell glfwTerminate GlfwTerminate >>
  ret 0%Z
  end end.

End Program.

(** ** Reading a trace *)

(** The conditions of the exit-code table. *)
Inductive Condition :=
| Success
| WindowFailed
| LoaderFailed
| ObjectFailed
| LinkFailed
| InitFailed
| VertexUnreadable
| FragmentUnreadable
| CompileFailed.




(** The part of a trace that follows the creation of the program
    object, with the handle that was returned. *)
Fixpoint from_program (t : list Event) : option (Z * list Event) :=
  match t with
  | [] => None
  | GlCreateProgram program :: rest => Some (program, rest)
  | _ :: rest => from_program rest
  end.

(** The handle [glCreateShader] returned for a shader type. *)
Fixpoint shader_created (type : ShaderType) (t : list Event) : option Z :=
  match t with
  | [] => None
  | GlCreateShader GL_VERTEX_SHADER r :: rest =>
      match type with
      | GL_VERTEX_SHADER => Some r
      | GL_FRAGMENT_SHADER => shader_created type rest
      end
  | GlCreateShader GL_FRAGMENT_SHADER r :: rest =>
      match type with
      | GL_FRAGMENT_SHADER => Some r
      | GL_VERTEX_SHADER => shader_created type rest
      end
  | _ :: rest => shader_created type rest
  end.

(** Acquisitions and releases of the four resources of [main]. *)
Definition is_acquisition (e : Event) : bool :=
  match e with
  | GlfwCreateWindow _ _ _ _ | GlCreateShader _ _ | GlCreateProgram _ => true
  | _ => false
  end.

Definition is_release (e : Event) : bool :=
  match e with
  | GlfwDestroyWindow _ | GlDeleteShader _ | GlDeleteProgram _ => true
  | _ => false
  end.

Definition acquisitions (t : list Event) : list Event :=
  List.filter is_acquisition t.

Definition releases (t : list Event) : list Event :=
  List.filter is_release t.


Section Reading.

Context {GL : Type} `{B : Backend GL}.

Definition readable (fileName : string) : bool :=
  match ifstream_open fileName with
  | Some _ => true
  | None => false
  end.

(** [occurs c t]: the trace [t] shows that condition [c] is what ended
    the run.  The two files are looked at in the order in which [main]
    tests them, once the context is up. *)
Definition occurs (c : Condition) (t : list Event) : bool :=
  match c with
  | InitFailed =>
      existsb (fun e => match e with
                        | GlfwInit r => (r =? 0)%Z
                        | _ => false
                        end) t
  | WindowFailed =>
      existsb (fun e => match e with
                        | GlfwCreateWindow _ _ _ r => (r =? 0)%Z
                        | _ => false
                        end) t
  | LoaderFailed =>
      existsb (fun e => match e with
                        | GlewInit r => negb (r =? GLEW_OK)%Z
                        | _ => false
                        end) t
  | VertexUnreadable =>
      existsb (fun e => match e with
                        | GlGetIntegerv _ _ => true
                        | _ => false
                        end) t
      && negb (readable "Shader.vert")
  | FragmentUnreadable =>
      existsb (fun e => match e with
                        | GlGetIntegerv _ _ => true
                        | _ => false
                        end) t
      && readable "Shader.vert" && negb (readable "Shader.frag")
  | ObjectFailed =>
      existsb (fun e => match e with
                        | GlCreateShader _ r | GlCreateProgram r => (r =? 0)%Z
                        | _ => false
                        end) t
  | CompileFailed =>
      existsb (fun e => match e with
                        | GlGetShaderiv _ GL_COMPILE_STATUS r => (r =? 0)%Z
                        | _ => false
                        end) t
  | LinkFailed =>
      existsb (fun e => match e with
                        | GlGetProgramiv _ GL_LINK_STATUS r => (r =? 0)%Z
                        | _ => false
                        end) t
  | Success =>
      existsb (fun e => match e with
                        | GlGetProgramiv _ GL_LINK_STATUS r => negb (r =? 0)%Z
                        | _ => false
                        end) t
      && existsb (fun e => match e with
                           | GlfwDestroyWindow _ => true
                           | _ => false
                           end) t
  end.




(** The text the fallback branch of [getErrorMessage] builds. *)
Definition undescribed (e : Z) : string :=
  "OpenGL error: " +:+ show_int (static_cast_int e) +:+ endl +:+
  "Error string: No description available. Incompatible OpenGL version?" +:+
  endl.

End Reading.

(** ** A scripted backend

    Concrete libraries to run the program against: a [Scenario] fixes the
    files on disk and what every entry point answers, and [fault] names
    the calls that record an OpenGL error.  The state of the libraries is
    the error flag: the first error recorded stays until [glGetError]
    reads and clears it. *)

Module Sim.

Record Scenario := {
  files : gmap string string;
  glfw_ok : Z;
  window_ptr : Z;
  glew_result : Z;
  max_vectors : Z;
  vs_name : Z;
  fs_name : Z;
  program_name : Z;
  shader_log : Z -> string;
  compile_status : Z -> Z;
  program_log : string;
  link_status : Z;
  fault : Event -> Z
}.

Section Scripted.

Variable sc : Scenario.

Definition raise (e : Event) (flag : Z) : Z :=
  if (flag =? 0)%Z then fault sc e else flag.

(** [GL_INFO_LOG_LENGTH] counts the terminating NUL; no log is [0]. *)
Definition log_length (log : string) : Z :=
  match log with
  | EmptyString => 0
  | _ => Z.of_nat (String.length log) + 1
  end.

(** The info-log calls write at most [bufSize - 1] characters. *)
Definition read_log (log : string) (bufSize : Z) : string :=
  String.substring 0 (Z.to_nat (bufSize - 1)) log.

Definition shader_name (type : ShaderType) : Z :=
  match type with
  | GL_VERTEX_SHADER => vs_name sc
  | GL_FRAGMENT_SHADER => fs_name sc
  end.

Definition shader_param (shader : Z) (pname : Pname) : Z :=
  match pname with
  | GL_INFO_LOG_LENGTH => log_length (shader_log sc shader)
  | GL_COMPILE_STATUS => compile_status sc shader
  | _ => 0
  end.

Definition program_param (pname : Pname) : Z :=
  match pname with
  | GL_INFO_LOG_LENGTH => log_length (program_log sc)
  | GL_LINK_STATUS => link_status sc
  | _ => 0
  end.

Definition answer {A} (a : A) (ev : A -> Event) (flag : Z) : A * Z :=
  (a, raise (ev a) flag).

#[export] Instance backend : Backend Z := {|
  GL_NO_ERROR := 0;
  GL_INVALID_ENUM := 1280;
  GL_INVALID_VALUE := 1281;
  GL_INVALID_OPERATION := 1282;
  GL_INVALID_FRAMEBUFFER_OPERATION := 1286;
  GL_OUT_OF_MEMORY := 1285;
  GL_STACK_UNDERFLOW := 1284;
  GL_STACK_OVERFLOW := 1283;
  GLEW_OK := 0;
  ifstream_open name := files sc !! name;
  glfwInit flag := (glfw_ok sc, flag);
  glfwCreateWindow _ _ _ flag := (window_ptr sc, flag);
  glfwMakeContextCurrent _ flag := flag;
  glfwDestroyWindow _ flag := flag;
  glfwTerminate flag := flag;
  glewInit flag := (glew_result sc, flag);
  glGetIntegerv pname :=
    answer (match pname with
            | GL_MAX_VERTEX_UNIFORM_VECTORS => max_vectors sc
            | _ => 0
            end) (GlGetIntegerv pname);
  glGetError flag := (flag, 0);
  glCreateShader type := answer (shader_name type) (GlCreateShader type);
  glShaderSource shader count strings :=
    raise (GlShaderSource shader count strings);
  glCompileShader shader := raise (GlCompileShader shader);
  glGetShaderiv shader pname :=
    answer (shader_param shader pname) (GlGetShaderiv shader pname);
  glGetShaderInfoLog shader bufSize :=
    answer (read_log (shader_log sc shader) bufSize)
           (GlGetShaderInfoLog shader bufSize);
  glCreateProgram := answer (program_name sc) GlCreateProgram;
  glAttachShader program shader := raise (GlAttachShader program shader);
  glLinkProgram program := raise (GlLinkProgram program);
  glGetProgramiv program pname :=
    answer (program_param pname) (GlGetProgramiv program pname);
  glGetProgramInfoLog program bufSize :=
    answer (read_log (program_log sc) bufSize)
           (GlGetProgramInfoLog program bufSize);
  glDeleteShader shader := raise (GlDeleteShader shader)
|}.

(** The run of [main] in this scenario. *)
Definition run : Outcome Z Z := main (init 0).

End Scripted.

(** Two small shaders that compile and link without a word from the
    driver. *)
Definition vert_text : string :=
  "void main() {" +:+ endl +:+ "  gl_Position = vec4(0.0);" +:+ endl
  +:+ "}" +:+ endl.
Definition frag_text : string :=
  "void main() {" +:+ endl +:+ "  gl_FragColor = vec4(1.0);" +:+ endl +:+ "}".

Definition healthy : Scenario := {|
  files := {[ "Shader.vert" := vert_text; "Shader.frag" := frag_text ]};
  glfw_ok := 1;
  window_ptr := 4096;
  glew_result := 0;
  max_vectors := 256;
  vs_name := 1;
  fs_name := 2;
  program_name := 3;
  shader_log := fun _ => EmptyString;
  compile_status := fun _ => 1;
  program_log := EmptyString;
  link_status := 1;
  fault := fun _ => 0
|}.








End Sim.

(** ** What the loader is measured against *)

Module Text.

(** The lines of a text, counted the way an editor does: one for every
    line terminator, and one more for a last line that has characters but
    no terminator. *)
Fixpoint last_char (s : string) : option ascii :=
  match s with
  | EmptyString => None
  | String c EmptyString => Some c
  | String _ rest => last_char rest
  end.

Definition unterminated (s : string) : bool :=
  match last_char s with
  | None => false
  | Some c => negb (Ascii.eqb c LF)
  end.



(** The text with its last line terminated. *)
Definition terminated (s : string) : string :=
  if unterminated s then s +:+ endl else s.


(** Concatenation of all elements, in order. *)
Definition concat_all (ls : list string) : string :=
  fold_right String.append EmptyString ls.

End Text.

(** ** Cases

    The inputs at which the theorems below are put to work. *)

Module Cases.


(** A file of two lines, the second without a terminator. *)
Definition two_lines (_ : string) : option string :=
  Some ("a" +:+ endl +:+ "b").

(** A disk on which nothing opens. *)
Definition no_files (_ : string) : option string := None.

(** A compile of the vertex shader of [Sim.bad_vertex], from a world in
    which nothing has happened yet. *)
Definition fresh : World Z := MkWorld 0 [].






End Cases.

(** ** More to measure against *)

Module Lines.

(** [c] occurs in [s]. *)
Fixpoint has_char (c : ascii) (s : string) : bool :=
  match s with
  | EmptyString => false
  | String d rest => Ascii.eqb d c || has_char c rest
  end.

(** A complete line: characters other than the terminator, then the
    terminator. *)
Definition is_line (l : string) : Prop :=
  exists body, l = body +:+ endl /\ has_char LF body = false.

End Lines.

(** ** More readings of a trace *)

(** The source submissions, in order. *)
Definition is_submission (e : Event) : bool :=
  match e with GlShaderSource _ _ _ => true | _ => false end.

Definition submissions (t : list Event) : list Event :=
  List.filter is_submission t.

(** The readings of [GL_COMPILE_STATUS], in order. *)
Definition is_compile_status (e : Event) : bool :=
  match e with GlGetShaderiv _ GL_COMPILE_STATUS _ => true | _ => false end.

Definition compile_statuses (t : list Event) : list Event :=
  List.filter is_compile_status t.

(** [glfwTerminate] was called. *)
Definition glfw_terminated (t : list Event) : bool :=
  existsb (fun e => match e with GlfwTerminate => true | _ => false end) t.

(** What [glGetIntegerv] answered for [GL_MAX_VERTEX_UNIFORM_VECTORS]. *)
Fixpoint max_vectors_answer (t : list Event) : option Z :=
  match t with
  | [] => None
  | GlGetIntegerv GL_MAX_VERTEX_UNIFORM_VECTORS r :: _ => Some r
  | _ :: rest => max_vectors_answer rest
  end.

(** A handle that is not zero and is among those handed out so far. *)
Definition known (h : Z) (handed_out : list Z) : bool :=
  negb (h =? 0)%Z && existsb (Z.eqb h) handed_out.

(** [handles_known windows shaders programs t]: every call of [t] that
    takes a handle is given one that an earlier creation call returned
    and that is not zero: a shader for the shader calls, a program for
    the program calls, a window for the window calls
    ([glfwMakeContextCurrent] also takes [nullptr]).  [glDeleteShader]
    is only asked for a handle of either kind. *)
Fixpoint handles_known (windows shaders programs : list Z) (t : list Event)
  : bool :=
  match t with
  | [] => true
  | e :: rest =>
      match e with
      | GlfwCreateWindow _ _ _ r =>
          handles_known (r :: windows) shaders programs rest
      | GlCreateShader _ r =>
          handles_known windows (r :: shaders) programs rest
      | GlCreateProgram r =>
          handles_known windows shaders (r :: programs) rest
      | GlfwMakeContextCurrent w =>
          ((w =? 0)%Z || known w windows)
          && handles_known windows shaders programs rest
      | GlfwDestroyWindow w =>
          known w windows && handles_known windows shaders programs rest
      | GlShaderSource sh _ _ | GlCompileShader sh
      | GlGetShaderiv sh _ _ | GlGetShaderInfoLog sh _ _ =>
          known sh shaders && handles_known windows shaders programs rest
      | GlAttachShader p sh =>
          known p programs && known sh shaders
          && handles_known windows shaders programs rest
      | GlLinkProgram p | GlGetProgramiv p _ _ | GlGetProgramInfoLog p _ _
      | GlDeleteProgram p =>
          known p programs && handles_known windows shaders programs rest
      | GlDeleteShader h =>
          known h (shaders ++ programs)
          && handles_known windows shaders programs rest
      | _ => handles_known windows shaders programs rest
      end
  end.

Section MoreReading.

Context {GL : Type} `{B : Backend GL}.

(** The description table of [getErrorMessage], as a list. *)
Definition error_table : list (Z * string) :=
  [ (GL_NO_ERROR,
     "No error has been recorded. THIS message is the error itself.");
    (GL_INVALID_ENUM,
     "An unacceptable value is specified for an enumerated argument.");
    (GL_INVALID_VALUE, "A numeric argument is out of range.");
    (GL_INVALID_OPERATION,
     "The specified operation is not allowed in the current state.");
    (GL_INVALID_FRAMEBUFFER_OPERATION,
     "The framebuffer object is not complete.");
    (GL_OUT_OF_MEMORY,
     "There is not enough memory left to execute the command.");
    (GL_STACK_UNDERFLOW,
     "An attempt has been made to perform an operation that would cause an internal stack to underflow.");
    (GL_STACK_OVERFLOW,
     "An attempt has been made to perform an operation that would cause an internal stack to overflow.") ].

(** [in_context inited current loaded t]: in [t], GLFW is used only
    after [glfwInit] succeeded, GLEW is initialised and OpenGL is called
    only while a context is current, OpenGL is called only after
    [glewInit] returned [GLEW_OK], the window is destroyed only after its
    context was released, and nothing follows [glfwTerminate]. *)
Fixpoint in_context (inited current loaded : bool) (t : list Event) : bool :=
  match t with
  | [] => true
  | e :: rest =>
      match e with
      | GlfwInit r => in_context (negb (r =? 0)%Z) current loaded rest
      | GlfwCreateWindow _ _ _ _ =>
          inited && in_context inited current loaded rest
      | GlfwMakeContextCurrent w =>
          inited && in_context inited (negb (w =? 0)%Z) loaded rest
      | GlfwDestroyWindow _ =>
          inited && negb current && in_context inited current loaded rest
      | GlfwTerminate =>
          inited && match rest with [] => true | _ => false end
      | GlewInit r =>
          current && in_context inited current (r =? GLEW_OK)%Z rest
      | Cout _ | Cerr _ => in_context inited current loaded rest
      | _ => current && loaded && in_context inited current loaded rest
      end
  end.

End MoreReading.

(** ** More cases *)

Module MoreCases.

(** A file of two terminated lines, and the lines. *)
Definition two_full_lines : list string := ["a" +:+ endl; "b" +:+ endl].

Definition two_full_lines_file (_ : string) : option string :=
  Some ("a" +:+ endl +:+ "b" +:+ endl).

(** The libraries of [Sim.healthy] with [GL_INVALID_VALUE] pending. *)
Definition pending_invalid_value : World Z := MkWorld 1281 [].

(** The lines of the two shaders of [Sim.healthy]. *)
Definition vert_lines : list string :=
  [ "void main() {" +:+ endl;
    "  gl_Position = vec4(0.0);" +:+ endl;
    "}" +:+ endl ].

Definition frag_lines : list string :=
  [ "void main() {" +:+ endl;
    "  gl_FragColor = vec4(1.0);" +:+ endl;
    "}" +:+ endl ].

(** What the run of [Sim.healthy] does after [glCreateProgram] has
    returned [3]. *)
Definition healthy_post : list Event :=
  [ GlGetError 0; GlAttachShader 3 1; GlGetError 0;
    GlAttachShader 3 2; GlGetError 0; GlLinkProgram 3; GlGetError 0;
    GlGetProgramiv 3 GL_INFO_LOG_LENGTH 0;
    GlGetProgramiv 3 GL_LINK_STATUS 1; GlGetError 0;
    GlDeleteShader 1; GlDeleteShader 2;
    Cout "Finishing..."; Cout endl;
    GlDeleteShader 3; GlfwMakeContextCurrent 0;
    GlfwDestroyWindow 4096; GlfwTerminate ].

End MoreCases.

(** * Theorems *)

(** ** The loader *)

Module LoaderFacts.
Import Loader Text.

Lemma read_lines_nil : read_lines EmptyString = [].
Proof. now simp read_lines. Qed.

Lemma read_lines_step (c : ascii) (s : string) :
  read_lines (String c s) =
  (fst (extract_line (String c s)) +:+ endl)
    :: read_lines (snd (extract_line (String c s))).
Proof.
  rewrite read_lines_equation_1.
  exact (read_lines_clause_1_equation_1 (String c s) _ eq_refl).
Qed.

(** The loop, read one character at a time. *)
Lemma read_lines_String (c : ascii) (s : string) :
  read_lines (String c s) =
  if Ascii.eqb c LF then endl :: read_lines s
  else match read_lines s with
       | [] => [String c endl]
       | l :: ls => String c l :: ls
       end.
Proof.
  rewrite read_lines_step. simpl.
  destruct (Ascii.eqb c LF) eqn:E; simpl; [reflexivity|].
  destruct s as [|d s].
  - simpl. now rewrite read_lines_nil.
  - rewrite read_lines_step.
    destruct (extract_line (String d s)). reflexivity.
Qed.

Lemma read_lines_not_nil (c : ascii) (s : string) :
  read_lines (String c s) <> [].
Proof. rewrite read_lines_step. discriminate. Qed.

Lemma unterminated_String (c d : ascii) (s : string) :
  unterminated (String c (String d s)) = unterminated (String d s).
Proof. reflexivity. Qed.

Lemma read_lines_concat (s : string) :
  concat_all (read_lines s) = terminated s.
Proof.
  induction s as [|c s IH]; [now rewrite read_lines_nil|].
  rewrite read_lines_String.
  destruct s as [|d s].
  - rewrite read_lines_nil. unfold terminated, unterminated. simpl.
    destruct (Ascii.eqb c LF) eqn:E; simpl; [|reflexivity].
    apply Ascii.eqb_eq in E. now subst c.
  - unfold terminated in *. rewrite unterminated_String.
    destruct (Ascii.eqb c LF) eqn:E.
    + apply Ascii.eqb_eq in E. subst c. simpl. rewrite IH.
      now destruct (unterminated (String d s)).
    + destruct (read_lines (String d s)) as [|l ls] eqn:R.
      * now apply read_lines_not_nil in R.
      * change (concat_all (String c l :: ls))
          with (String c (concat_all (l :: ls))).
        rewrite IH. now destruct (unterminated (String d s)).
Qed.




(** C6.  For a path that does not open, the loader returns the absent
    result. *)
Theorem load_absent
    (ifstream_open : string -> option string) (fileName : string) :
  ifstream_open fileName = None ->
  readFileAsStdListOfStrings ifstream_open fileName = None.
Proof.
  intros H. unfold readFileAsStdListOfStrings. now rewrite H.
Qed.

End LoaderFacts.

(** ** Strings *)

Lemma append_assoc (a b c : string) : (a +:+ b) +:+ c = a +:+ (b +:+ c).
Proof.
  induction a as [|x a IH]; [reflexivity|].
  change (String x ((a +:+ b) +:+ c) = String x (a +:+ (b +:+ c))).
  now rewrite IH.
Qed.

Lemma append_empty_r (a : string) : a +:+ EmptyString = a.
Proof.
  induction a as [|x a IH]; [reflexivity|].
  change (String x (a +:+ EmptyString) = String x a). now rewrite IH.
Qed.

(** ** Error inspection *)

Section ErrorFacts.

Context {GL : Type} `{B : Backend GL}.

Lemma describe_not_empty (e : Z) :
  exists c rest, describe e = String c rest.
Proof.
  unfold describe. destruct (errorStrings !! e); simpl; eauto.
Qed.

Lemma describe_unknown (e : Z) :
  errorStrings !! e = None -> describe e = undescribed e.
Proof.
  intros H. unfold describe, undescribed. rewrite H.
  now rewrite !append_assoc.
Qed.

Lemma error_run (w : World GL) :
  error w =
  if (GL_NO_ERROR =? fst (glGetError (gl w)))%Z
  then Ret false (MkWorld (snd (glGetError (gl w)))
                          (trace w ++ [GlGetError (fst (glGetError (gl w)))]))
  else Ret true (MkWorld (snd (glGetError (gl w)))
                         (trace w ++ [GlGetError (fst (glGetError (gl w)));
                                      Cerr (describe (fst (glGetError (gl w))))])).
Proof.
  unfold error, getErrorMessage, bind, ask, ret, cerr, emit.
  cbn [gl trace].
  destruct (GL_NO_ERROR =? _)%Z; cbn; [reflexivity|].
  destruct (describe_not_empty (fst (glGetError (gl w)))) as (c & rest & ->).
  cbn. rewrite <- app_assoc. reflexivity.
Qed.

Lemma assert_no_error_run (w : World GL) :
  assert_no_error w =
  if (GL_NO_ERROR =? fst (glGetError (gl w)))%Z
  then Ret tt (MkWorld (snd (glGetError (gl w)))
                       (trace w ++ [GlGetError (fst (glGetError (gl w)))]))
  else Abort (MkWorld (snd (glGetError (gl w)))
                      (trace w ++ [GlGetError (fst (glGetError (gl w)));
                                   Cerr (describe (fst (glGetError (gl w))))])).
Proof.
  unfold assert_no_error, bind. rewrite error_run.
  now destruct (GL_NO_ERROR =? _)%Z.
Qed.

(** C10.  [error()] asks the backend for its error flag once.  With no
    error pending it returns [false] and writes nothing.  With any other
    code, known to the description table or not, it writes one message
    to the error stream and returns [true]; the message is never empty,
    and for a code the table does not list it is the code followed by
    the "No description available" line. *)
Theorem error_reports_pending (w : World GL) :
  let e := fst (glGetError (gl w)) in
  let g' := snd (glGetError (gl w)) in
  if (e =? GL_NO_ERROR)%Z
  then error w = Ret false (MkWorld g' (trace w ++ [GlGetError e]))
  else exists msg,
      error w = Ret true (MkWorld g' (trace w ++ [GlGetError e; Cerr msg]))
      /\ msg <> EmptyString
      /\ match errorStrings !! e with
         | None => msg = undescribed e
         | Some text =>
             msg = "OpenGL error: " +:+ show_int (static_cast_int e) +:+ endl
                   +:+ "Error string: " +:+ text +:+ endl
         end.
Proof.
  intros e g'. rewrite error_run. fold e g'.
  rewrite (Z.eqb_sym GL_NO_ERROR e).
  destruct (e =? GL_NO_ERROR)%Z; [reflexivity|].
  exists (describe e). split; [reflexivity|]. split.
  - destruct (describe_not_empty e) as (c & rest & ->). discriminate.
  - destruct (errorStrings !! e) eqn:F.
    + unfold describe. rewrite F. now rewrite !append_assoc.
    + now apply describe_unknown.
Qed.

End ErrorFacts.

(** ** Running the program against an arbitrary backend

    [run_all] executes a program of [M] symbolically: it names every
    answer of the backend, splits on every test the program makes on an
    answer, and leaves one goal for each path, with the trace of that path
    written out and the outcome of each test among the hypotheses. *)

Ltac run_reduce :=
  cbv beta iota zeta
      delta [bind ask tell emit cout cerr ret assert gl trace init final];
  cbn [fst snd app].

Ltac name_answer :=
  match goal with
  | |- context [fst ?p] =>
      lazymatch p with
      | context [fst _] => fail
      | context [snd _] => fail
      | _ => idtac
      end;
      let a := fresh "a" in
      let g := fresh "g" in
      destruct p as [a g]
  | |- context [MkWorld ?s _] =>
      lazymatch s with
      | context [fst _] => fail
      | context [snd _] => fail
      | _ => idtac
      end;
      tryif is_var s then fail
      else (let g := fresh "g" in generalize s; intro g)
  end.

Ltac run_branch :=
  match goal with
  | |- context [assert_no_error ?w] =>
      rewrite (assert_no_error_run w)
  | |- context [(if ?c then _ else _) (MkWorld _ _)] =>
      let E := fresh "E" in destruct c eqn:E
  | |- context [match ?o with Some _ => _ | None => _ end (MkWorld _ _)] =>
      let E := fresh "E" in destruct o eqn:E
  | |- context [match (if ?c then _ else _) with
                | Ret _ _ => _ | Abort _ => _ end] =>
      let E := fresh "E" in destruct c eqn:E
  end.

Ltac run_all :=
  repeat (run_reduce; first [name_answer | run_branch]); run_reduce.

(** The tests of a path, as equations between the answers. *)
Ltac read_tests :=
  repeat match goal with
    | H : negb _ = true |- _ => apply negb_true_iff in H
    | H : negb _ = false |- _ => apply negb_false_iff in H
    end.





(** A trace that grew from an unknown one, with the new events gathered. *)
Ltac gather_trace :=
  repeat setoid_rewrite <- app_assoc; cbn [app].

(** ** compileShader *)

Section CompileFacts.

Context {GL : Type} `{B : Backend GL}.



End CompileFacts.

(** ** main *)


Ltac use_tests :=
  repeat (cbn [orb andb negb];
          match goal with
          | H : ?c = true |- context [?c] => rewrite H
          | H : ?c = false |- context [?c] => rewrite H
          | H : ifstream_open ?n = _ |- context [ifstream_open ?n] => rewrite H
          end);
  cbn [orb andb negb].




Section MainFacts.

Context {GL : Type} `{B : Backend GL}.







(** C9, as the code has it.  A run of [main] that returns [0] acquired
    a window, a vertex shader, a fragment shader and a program, and
    released the window through [glfwDestroyWindow] and both shaders
    through [glDeleteShader], once each; the program handle went to
    [glDeleteShader] as well, and [glDeleteProgram] was never called. *)
Theorem main_deletes_program_as_shader (g : GL) (w' : World GL) :
  main (init g) = Ret 0 w' ->
  exists window vs fs program,
    acquisitions (trace w') =
      [ GlfwCreateWindow 300 200 "Shader test" window;
        GlCreateShader GL_VERTEX_SHADER vs;
        GlCreateShader GL_FRAGMENT_SHADER fs;
        GlCreateProgram program ]
    /\ releases (trace w') =
         [ GlDeleteShader vs; GlDeleteShader fs; GlDeleteShader program;
           GlfwDestroyWindow window ].
Proof.
  unfold main, compileShader. run_all.
  all: try discriminate.
  all: intros [= <-]; eexists _, _, _, _; split; reflexivity.
Qed.

End MainFacts.

(** ** Exit codes of different failures *)


(** * The theorems at work *)

Module Examples.
Import Loader Text LoaderFacts Cases.



(** C6 at a disk on which nothing opens. *)
Lemma load_absent_witness :
  readFileAsStdListOfStrings no_files "Shader.vert" = None.
Proof. exact (load_absent no_files "Shader.vert" eq_refl). Defined.








(** C9 at the healthy run: the program goes to [glDeleteShader]. *)
Lemma main_deletes_program_as_shader_witness :
  exists window vs fs program,
    acquisitions (trace (final (Sim.run Sim.healthy))) =
      [ GlfwCreateWindow 300 200 "Shader test" window;
        GlCreateShader GL_VERTEX_SHADER vs;
        GlCreateShader GL_FRAGMENT_SHADER fs;
        GlCreateProgram program ]
    /\ releases (trace (final (Sim.run Sim.healthy))) =
         [ GlDeleteShader vs; GlDeleteShader fs; GlDeleteShader program;
           GlfwDestroyWindow window ].
Proof.
  apply (@main_deletes_program_as_shader Z (Sim.backend Sim.healthy) 0
           (final (Sim.run Sim.healthy))).
  vm_compute; reflexivity.
Defined.

(** In the healthy run the program object [3] is never given to
    [glDeleteProgram]. *)
Lemma healthy_run_releases :
  exit_status (Sim.run Sim.healthy) = Some 0
  /\ acquisitions (trace (final (Sim.run Sim.healthy))) =
       [ GlfwCreateWindow 300 200 "Shader test" 4096;
         GlCreateShader GL_VERTEX_SHADER 1;
         GlCreateShader GL_FRAGMENT_SHADER 2;
         GlCreateProgram 3 ]
  /\ releases (trace (final (Sim.run Sim.healthy))) =
       [ GlDeleteShader 1; GlDeleteShader 2; GlDeleteShader 3;
         GlfwDestroyWindow 4096 ]
  /\ existsb (fun e => match e with GlDeleteProgram _ => true | _ => false end)
       (trace (final (Sim.run Sim.healthy))) = false.
Proof. repeat split. Qed.

End Examples.

(** * More about the code *)

(** ** The loader, as a splitter of text *)

Module LoaderMore.
Import Loader Text Lines LoaderFacts.

Lemma LF_eqb_refl : Ascii.eqb LF LF = true.
Proof. reflexivity. Qed.

(** A complete line at the head of the stream is read off as it is. *)
Lemma read_lines_line (body rest : string) :
  has_char LF body = false ->
  read_lines ((body +:+ endl) +:+ rest) = (body +:+ endl) :: read_lines rest.
Proof.
  induction body as [|c body IH]; intros H.
  - change (read_lines (String LF rest) = endl :: read_lines rest).
    rewrite read_lines_String. now rewrite LF_eqb_refl.
  - cbn [has_char] in H. apply orb_false_iff in H as [Hc Hb].
    change (read_lines (String c ((body +:+ endl) +:+ rest))
            = String c (body +:+ endl) :: read_lines rest).
    rewrite read_lines_String, Hc, (IH Hb). reflexivity.
Qed.

Lemma read_lines_lines (lines : list string) (rest : string) :
  Forall is_line lines ->
  read_lines (concat_all lines +:+ rest) = (lines ++ read_lines rest)%list.
Proof.
  induction 1 as [|l lines (body & -> & Hb) _ IH]; [reflexivity|].
  change (concat_all ((body +:+ endl) :: lines))
    with ((body +:+ endl) +:+ concat_all lines).
  rewrite append_assoc, (read_lines_line _ _ Hb), IH. reflexivity.
Qed.

Lemma read_lines_are_lines (s : string) : Forall is_line (read_lines s).
Proof.
  induction s as [|c s IH]; [rewrite read_lines_nil; constructor|].
  rewrite read_lines_String. destruct (Ascii.eqb c LF) eqn:E.
  - constructor; [|exact IH]. exists EmptyString. now split.
  - destruct (read_lines s) as [|l ls].
    + constructor; [|constructor]. exists (String c EmptyString).
      split; [reflexivity|]. cbn [has_char]. now rewrite E.
    + inversion IH as [|? ? (body & -> & Hb) Hls]; subst.
      constructor; [|exact Hls]. exists (String c body).
      split; [reflexivity|]. cbn [has_char]. now rewrite E, Hb.
Qed.

Lemma read_lines_of_terminated (a : string) :
  read_lines (terminated a) = read_lines a.
Proof.
  rewrite <- (read_lines_concat a) at 1.
  rewrite <- (append_empty_r (concat_all (read_lines a))).
  rewrite (read_lines_lines _ _ (read_lines_are_lines a)), read_lines_nil.
  apply app_nil_r.
Qed.

(** X1.  Every element the loader returns is one complete line: it ends
    in the line terminator and has no terminator before its end. *)
Theorem load_gives_complete_lines
    (ifstream_open : string -> option string) (fileName : string)
    (lines : list string) :
  readFileAsStdListOfStrings ifstream_open fileName = Some lines ->
  Forall is_line lines.
Proof.
  unfold readFileAsStdListOfStrings.
  destruct (ifstream_open fileName) as [content|]; [|discriminate].
  intros [= <-]. apply read_lines_are_lines.
Qed.

(** X2.  Loading is the inverse of concatenation: a file written as a
    sequence of complete lines loads as that sequence. *)
Theorem load_of_written_lines
    (ifstream_open : string -> option string) (fileName : string)
    (lines : list string) :
  Forall is_line lines ->
  ifstream_open fileName = Some (concat_all lines) ->
  readFileAsStdListOfStrings ifstream_open fileName = Some lines.
Proof.
  intros Hl Ho. unfold readFileAsStdListOfStrings. rewrite Ho. f_equal.
  rewrite <- (append_empty_r (concat_all lines)).
  rewrite (read_lines_lines _ _ Hl), read_lines_nil. apply app_nil_r.
Qed.

(** X3.  A text followed by another loads as the lines of the first
    followed by the lines of the second, once the last line of the first
    is terminated. *)
Theorem read_lines_append (a b : string) :
  read_lines (terminated a +:+ b) = (read_lines a ++ read_lines b)%list.
Proof.
  rewrite <- (read_lines_concat a).
  apply read_lines_lines, read_lines_are_lines.
Qed.

(** X4.  Two files load as the same sequence exactly when they are the
    same text up to the terminator of the last line; in particular a
    missing final terminator makes no difference. *)
Theorem load_same_lines (a b : string) :
  read_lines a = read_lines b <-> terminated a = terminated b.
Proof.
  split; intros H.
  - now rewrite <- !read_lines_concat, H.
  - now rewrite <- (read_lines_of_terminated a), H, read_lines_of_terminated.
Qed.

(** X5.  A file that opens gives the empty sequence only when it has no
    content. *)
Theorem load_empty_iff
    (ifstream_open : string -> option string) (fileName : string) :
  readFileAsStdListOfStrings ifstream_open fileName = Some []
  <-> ifstream_open fileName = Some EmptyString.
Proof.
  unfold readFileAsStdListOfStrings.
  destruct (ifstream_open fileName) as [[|c s]|].
  - now rewrite read_lines_nil.
  - split; [|discriminate]. intros [= H].
  - split; discriminate.
Qed.

End LoaderMore.

(** ** Strings and numbers on their way to the backend *)

Module Marshalling.
Import Lines.

Lemma c_str_without_NUL (s : string) :
  has_char Ascii.zero s = false -> c_str s = s.
Proof.
  induction s as [|c s IH]; [reflexivity|].
  cbn [has_char c_str]. intros H. apply orb_false_iff in H as [Hc Hs].
  now rewrite Hc, (IH Hs).
Qed.

Lemma c_str_lines (source : list string) :
  Forall (fun l => has_char Ascii.zero l = false) source ->
  map c_str source = source.
Proof.
  induction 1 as [|l ls Hl _ IH]; [reflexivity|].
  cbn [map]. now rewrite IH, (c_str_without_NUL _ Hl).
Qed.


Lemma static_cast_int_small (z : Z) :
  (0 <= z < 2 ^ 31)%Z -> static_cast_int z = z.
Proof. intros H. unfold static_cast_int. rewrite Z.mod_small; lia. Qed.

Lemma GLsizei_small (n : nat) :
  (Z.of_nat n < 2 ^ 31)%Z -> GLsizei n = Z.of_nat n.
Proof. intros H. apply static_cast_int_small. lia. Qed.


End Marshalling.

(** ** The description table *)

Section TableFacts.

Context {GL : Type} `{B : Backend GL}.

Lemma errorStrings_table : errorStrings = list_to_map error_table.
Proof. reflexivity. Qed.

(** X8.  The first entry of the table is never used: no error code that
    [getErrorMessage] describes is given the text written for
    [GL_NO_ERROR]. *)
Theorem no_error_text_unused (e : Z) :
  e <> GL_NO_ERROR ->
  errorStrings !! e
  <> Some "No error has been recorded. THIS message is the error itself.".
Proof.
  intros Hne H. rewrite errorStrings_table in H.
  apply elem_of_list_to_map_2 in H. unfold error_table in H.
  repeat (apply elem_of_cons in H as [H|H];
          [apply pair_equal_spec in H as [H1 H2];
           first [congruence | discriminate H2]|]).
  now apply elem_of_nil in H.
Qed.

(** X9.  When the eight codes of the header are different numbers and
    the backend reports one of the seven errors of the table, [error()]
    writes the code and the text the table has next to it, and returns
    [true]. *)
Theorem error_describes_known_code
    (w : World GL) (code : Z) (text : string) :
  NoDup (map fst error_table) ->
  In (code, text) error_table ->
  fst (glGetError (gl w)) = code ->
  code <> GL_NO_ERROR ->
  error w =
    Ret true
      (MkWorld (snd (glGetError (gl w)))
         (trace w
            ++ [ GlGetError code;
                 Cerr ("OpenGL error: " +:+ show_int (static_cast_int code)
                       +:+ endl +:+ "Error string: " +:+ text +:+ endl) ])).
Proof.
  intros Hnd Hin He Hne. rewrite error_run, He.
  destruct (GL_NO_ERROR =? code)%Z eqn:E;
    [apply Z.eqb_eq in E; congruence|].
  do 4 f_equal. unfold describe. rewrite errorStrings_table.
  rewrite (elem_of_list_to_map_1 error_table code text Hnd).
  - now rewrite !append_assoc.
  - now apply list_elem_of_In.
Qed.

End TableFacts.

(** ** compileShader, once more *)

Lemma filter_app_events (p : Event -> bool) (a b : list Event) :
  List.filter p (a ++ b) = (List.filter p a ++ List.filter p b)%list.
Proof. apply List.filter_app. Qed.

Lemma stdout_app (a b : list Event) :
  stdout (a ++ b) = stdout a +:+ stdout b.
Proof.
  induction a as [|[] a IH]; cbn [app stdout]; try exact IH; [reflexivity|].
  now rewrite IH, append_assoc.
Qed.

Lemma stderr_app (a b : list Event) :
  stderr (a ++ b) = stderr a +:+ stderr b.
Proof.
  induction a as [|[] a IH]; cbn [app stderr]; try exact IH; [reflexivity|].
  now rewrite IH, append_assoc.
Qed.

Section CompileMore.

Context {GL : Type} `{B : Backend GL}.
Import Lines Marshalling.

(** X10.  The first thing [compileShader] does is to hand the backend
    the lines it was given, all of them, unchanged and in order, provided
    no line holds a NUL and there are fewer than [2^31] lines. *)
Theorem compileShader_submits_source
    (shader : Z) (source : list string) (w : World GL) :
  Forall (fun l => has_char Ascii.zero l = false) source ->
  (Z.of_nat (length source) < 2 ^ 31)%Z ->
  exists rest,
    trace (final (compileShader shader source w)) =
      (trace w
         ++ GlShaderSource shader (Z.of_nat (length source)) source
         :: rest)%list.
Proof.
  intros Hnul Hlen. destruct w as [g t]. unfold compileShader.
  rewrite (c_str_lines _ Hnul), (GLsizei_small _ Hlen).
  run_all. all: gather_trace; eexists; reflexivity.
Qed.

(** X11.  [compileShader] creates nothing and releases nothing, however
    it ends. *)
Theorem compileShader_keeps_resources
    (shader : Z) (source : list string) (w : World GL) :
  acquisitions (trace (final (compileShader shader source w)))
    = acquisitions (trace w)
  /\ releases (trace (final (compileShader shader source w)))
     = releases (trace w).
Proof.
  destruct w as [g t]. unfold compileShader. run_all.
  all: gather_trace; unfold acquisitions, releases;
    rewrite !filter_app_events; cbn [List.filter is_acquisition is_release];
    now rewrite !app_nil_r.
Qed.

(** X12.  [compileShader] keeps the two streams apart: when it returns
    it has written nothing to the error stream, and when it aborts it has
    written nothing to the output stream and has not read the compile
    status. *)
Theorem compileShader_streams
    (shader : Z) (source : list string) (w : World GL) :
  match compileShader shader source w with
  | Ret _ w' => stderr (trace w') = stderr (trace w)
  | Abort w' =>
      stdout (trace w') = stdout (trace w)
      /\ compile_statuses (trace w') = compile_statuses (trace w)
  end.
Proof.
  destruct w as [g t]. unfold compileShader. run_all.
  all: gather_trace; unfold compile_statuses;
    rewrite ?stderr_app, ?stdout_app, ?filter_app_events;
    cbn [stderr stdout List.filter is_compile_status];
    rewrite ?append_empty_r, ?app_nil_r; auto.
Qed.

End CompileMore.

(** ** main, once more *)

Ltac use_handles :=
  cbn [handles_known app]; unfold known; cbn [existsb];
  repeat progress (rewrite ?Z.eqb_refl, ?orb_true_r; use_tests).

(** The loaded lines of a path, named after the file they come from. *)
Ltac loaded_files :=
  repeat match goal with
    | H : Loader.readFileAsStdListOfStrings _ ?n = Some _,
      F : ifstream_open ?n = Some _ |- _ =>
        unfold Loader.readFileAsStdListOfStrings in H;
        rewrite F in H; injection H as <-
    end.

Section MainMore.

Context {GL : Type} `{B : Backend GL}.
Import Loader Text Lines LoaderFacts LoaderMore Marshalling.


(** X14.  Only a run of [main] that returns [0] releases anything: on
    every other way out the window, the shaders and the program stay as
    they are.  [glfwTerminate] is called on three ways out only: success,
    a window that was not created, and an extension loader that did not
    initialise. *)
Theorem main_releases_on_success_only (g : GL) :
  match main (init g) with
  | Ret code w' =>
      (code <> 0 -> releases (trace w') = [])
      /\ (glfw_terminated (trace w') = true
          <-> code = 0 \/ code = 1 \/ occurs LoaderFailed (trace w') = true)
  | Abort w' =>
      releases (trace w') = [] /\ glfw_terminated (trace w') = false
  end.
Proof.
  unfold main, compileShader. run_all.
  all: read_tests.
  all: cbn [releases List.filter is_release glfw_terminated occurs existsb];
    use_tests.
  all: repeat split; try reflexivity; try congruence; try lia; auto.
  all: intuition (try discriminate; try lia).
Qed.

(** X15.  [main] calls the libraries in an order they accept: GLFW only
    after [glfwInit] succeeded, GLEW and OpenGL only while the context of
    the window is current, OpenGL only after [glewInit] returned
    [GLEW_OK]; it destroys the window only after releasing the context,
    and calls nothing after [glfwTerminate]. *)
Theorem main_calls_in_context (g : GL) :
  in_context false false false (trace (final (main (init g)))) = true.
Proof.
  unfold main, compileShader. run_all.
  all: read_tests.
  all: cbn [in_context]; use_tests; reflexivity.
Qed.

(** X16.  [main] never passes a handle it did not get: every shader,
    program and window handle given to a call is not zero and was
    returned by an earlier creation call of that kind, except that
    [glDeleteShader] is also given the program. *)
Theorem main_uses_known_handles (g : GL) :
  handles_known [] [] [] (trace (final (main (init g)))) = true.
Proof.
  unfold main, compileShader. run_all.
  all: read_tests.
  all: use_handles; reflexivity.
Qed.

(** X17.  Once [glGetIntegerv] has answered, the output stream starts
    with that answer, whatever happens next. *)
Theorem main_prints_max_vectors (g : GL) (n : Z) :
  max_vectors_answer (trace (final (main (init g)))) = Some n ->
  exists rest,
    stdout (trace (final (main (init g)))) =
      "Max vectors: " +:+ show_int n +:+ endl +:+ rest.
Proof.
  unfold main, compileShader. run_all.
  all: cbn [max_vectors_answer]; intros H; try discriminate H.
  all: injection H as <-; cbn [stdout]; eexists; reflexivity.
Qed.

(** X18.  [main] creates the program only after both compiles have
    succeeded: when the trace has [glCreateProgram], it has exactly two
    readings of the compile status, of the vertex shader and then of the
    fragment shader, and neither is zero. *)
Theorem main_links_compiled_shaders
    (g : GL) (program : Z) (post : list Event) :
  from_program (trace (final (main (init g)))) = Some (program, post) ->
  exists vs fs vertexStatus fragmentStatus,
    shader_created GL_VERTEX_SHADER (trace (final (main (init g)))) = Some vs
    /\ shader_created GL_FRAGMENT_SHADER (trace (final (main (init g))))
       = Some fs
    /\ compile_statuses (trace (final (main (init g)))) =
         [ GlGetShaderiv vs GL_COMPILE_STATUS vertexStatus;
           GlGetShaderiv fs GL_COMPILE_STATUS fragmentStatus ]
    /\ vertexStatus <> 0 /\ fragmentStatus <> 0.
Proof.
  unfold main, compileShader. run_all.
  all: cbn [from_program]; intros H; try discriminate H; clear H.
  all: read_tests.
  all: eexists _, _, _, _; repeat split; try reflexivity.
  all: apply Z.eqb_neq; assumption.
Qed.

(** X19.  What [main] submits is what it loaded: the first submission
    is the lines of [Shader.vert], for the vertex shader, and the second,
    if there is one, the lines of [Shader.frag], for the fragment shader;
    there is no third. *)
Theorem main_submits_loaded_files
    (g : GL) (shader count : Z) (strings : list string)
    (rest : list Event) :
  submissions (trace (final (main (init g))))
    = GlShaderSource shader count strings :: rest ->
  exists vertexLines,
    readFileAsStdListOfStrings ifstream_open "Shader.vert" = Some vertexLines
    /\ shader_created GL_VERTEX_SHADER (trace (final (main (init g))))
       = Some shader
    /\ count = GLsizei (length vertexLines)
    /\ strings = map c_str vertexLines
    /\ (rest = []
        \/ exists fragmentLines fs,
            readFileAsStdListOfStrings ifstream_open "Shader.frag"
              = Some fragmentLines
            /\ shader_created GL_FRAGMENT_SHADER
                 (trace (final (main (init g)))) = Some fs
            /\ rest = [ GlShaderSource fs (GLsizei (length fragmentLines))
                          (map c_str fragmentLines) ]).
Proof.
  unfold main, compileShader. run_all.
  all: cbn [submissions List.filter is_submission]; intros H;
    try discriminate H.
  all: injection H as <- <- <- <-.
  all: eexists; split; [reflexivity|]; repeat split.
  all: first [ left; reflexivity | right; eexists _, _; repeat split ].
Qed.

Lemma read_lines_keep_NUL_out (s : string) :
  has_char Ascii.zero s = false ->
  Forall (fun l => has_char Ascii.zero l = false) (read_lines s).
Proof.
  induction s as [|c s IH]; intros H; [rewrite read_lines_nil; constructor|].
  cbn [has_char] in H. apply orb_false_iff in H as [Hc Hs].
  specialize (IH Hs). rewrite read_lines_String.
  destruct (Ascii.eqb c LF).
  - constructor; [reflexivity | exact IH].
  - destruct (read_lines s) as [|l ls].
    + constructor; [|constructor]. cbn [has_char endl]. now rewrite Hc.
    + inversion IH as [|? ? Hl Hls]; subst.
      constructor; [|exact Hls]. cbn [has_char]. now rewrite Hc, Hl.
Qed.

(** X20.  From the disk to the compiler: in a run of [main] that returns
    [0], with two files that hold no NUL, the strings submitted for each
    shader, put one after the other, are the text of its file with the
    last line terminated. *)
Theorem main_submits_file_text
    (g : GL) (w' : World GL) (vert frag : string) :
  main (init g) = Ret 0 w' ->
  ifstream_open "Shader.vert" = Some vert ->
  ifstream_open "Shader.frag" = Some frag ->
  has_char Ascii.zero vert = false ->
  has_char Ascii.zero frag = false ->
  exists vs fs vertexCount fragmentCount vertexStrings fragmentStrings,
    submissions (trace w') =
      [ GlShaderSource vs vertexCount vertexStrings;
        GlShaderSource fs fragmentCount fragmentStrings ]
    /\ concat_all vertexStrings = terminated vert
    /\ concat_all fragmentStrings = terminated frag.
Proof.
  intros Hrun Hv Hf Hnv Hnf. revert Hrun.
  unfold main, compileShader. run_all.
  all: try discriminate.
  all: intros [= <-]; loaded_files.
  all: eexists _, _, _, _, _, _; split; [reflexivity|].
  all: rewrite !c_str_lines by (now apply read_lines_keep_NUL_out).
  all: split; apply read_lines_concat.
Qed.

End MainMore.

(** * More theorems at work *)

Module MoreExamples.
Import Loader Text Lines LoaderFacts LoaderMore Marshalling Cases MoreCases.

(** X1 at a file whose last line has no terminator. *)
Lemma load_gives_complete_lines_witness :
  Forall is_line ["a" +:+ endl; "b" +:+ endl].
Proof.
  apply (load_gives_complete_lines two_lines "Shader.vert").
  reflexivity.
Defined.

(** X2 at a file of two terminated lines. *)
Lemma load_of_written_lines_witness :
  readFileAsStdListOfStrings two_full_lines_file "Shader.vert"
  = Some two_full_lines.
Proof.
  apply (load_of_written_lines two_full_lines_file "Shader.vert"
           two_full_lines).
  - repeat constructor; eexists; split; reflexivity.
  - reflexivity.
Defined.


(** X8 at [GL_INVALID_VALUE] in the header of [Sim.healthy]. *)
Lemma no_error_text_unused_witness :
  @errorStrings Z (Sim.backend Sim.healthy) !! 1281%Z
  <> Some "No error has been recorded. THIS message is the error itself.".
Proof.
  apply (@no_error_text_unused Z (Sim.backend Sim.healthy) 1281).
  discriminate.
Defined.

(** X9 at a pending [GL_INVALID_VALUE]. *)
Lemma error_describes_known_code_witness :
  @error Z (Sim.backend Sim.healthy) pending_invalid_value =
    Ret true
      (MkWorld
         (snd (@glGetError Z (Sim.backend Sim.healthy)
                 (gl pending_invalid_value)))
         (trace pending_invalid_value
            ++ [ GlGetError 1281;
                 Cerr ("OpenGL error: " +:+ show_int (static_cast_int 1281)
                       +:+ endl +:+ "Error string: "
                       +:+ "A numeric argument is out of range." +:+ endl) ])).
Proof.
  apply (@error_describes_known_code Z (Sim.backend Sim.healthy)
           pending_invalid_value 1281 "A numeric argument is out of range.").
  - vm_compute. apply (bool_decide_unpack _). vm_compute. exact I.
  - cbn [error_table In]. auto.
  - reflexivity.
  - discriminate.
Defined.

(** X10 at the vertex shader of [Sim.healthy]. *)
Lemma compileShader_submits_source_witness :
  exists rest,
    trace (final (@compileShader Z (Sim.backend Sim.healthy) 1 vert_lines
                    fresh)) =
      (trace fresh
         ++ GlShaderSource 1 (Z.of_nat (length vert_lines)) vert_lines
         :: rest)%list.
Proof.
  apply (@compileShader_submits_source Z (Sim.backend Sim.healthy)
           1 vert_lines fresh).
  - repeat constructor.
  - vm_compute. reflexivity.
Defined.

(** X17 at the run of [Sim.healthy]. *)
Lemma main_prints_max_vectors_witness :
  exists rest,
    stdout (trace (final (@main Z (Sim.backend Sim.healthy) (init 0)))) =
      "Max vectors: " +:+ show_int 256 +:+ endl +:+ rest.
Proof.
  apply (@main_prints_max_vectors Z (Sim.backend Sim.healthy) 0 256).
  reflexivity.
Defined.

(** X18 at the run of [Sim.healthy]. *)
Lemma main_links_compiled_shaders_witness :
  exists vs fs vertexStatus fragmentStatus,
    shader_created GL_VERTEX_SHADER
      (trace (final (@main Z (Sim.backend Sim.healthy) (init 0)))) = Some vs
    /\ shader_created GL_FRAGMENT_SHADER
         (trace (final (@main Z (Sim.backend Sim.healthy) (init 0))))
       = Some fs
    /\ compile_statuses
         (trace (final (@main Z (Sim.backend Sim.healthy) (init 0)))) =
         [ GlGetShaderiv vs GL_COMPILE_STATUS vertexStatus;
           GlGetShaderiv fs GL_COMPILE_STATUS fragmentStatus ]
    /\ vertexStatus <> 0 /\ fragmentStatus <> 0.
Proof.
  apply (@main_links_compiled_shaders Z (Sim.backend Sim.healthy) 0
           3 healthy_post).
  reflexivity.
Defined.

(** X19 at the run of [Sim.healthy]. *)
Lemma main_submits_loaded_files_witness :
  exists vertexLines,
    readFileAsStdListOfStrings
      (@ifstream_open Z (Sim.backend Sim.healthy)) "Shader.vert"
      = Some vertexLines
    /\ shader_created GL_VERTEX_SHADER
         (trace (final (@main Z (Sim.backend Sim.healthy) (init 0))))
       = Some 1
    /\ 3 = GLsizei (length vertexLines)
    /\ vert_lines = map c_str vertexLines
    /\ ([GlShaderSource 2 3 frag_lines] = []
        \/ exists fragmentLines fs,
            readFileAsStdListOfStrings
              (@ifstream_open Z (Sim.backend Sim.healthy)) "Shader.frag"
              = Some fragmentLines
            /\ shader_created GL_FRAGMENT_SHADER
                 (trace (final (@main Z (Sim.backend Sim.healthy) (init 0))))
               = Some fs
            /\ [GlShaderSource 2 3 frag_lines]
               = [ GlShaderSource fs (GLsizei (length fragmentLines))
                     (map c_str fragmentLines) ]).
Proof.
  apply (@main_submits_loaded_files Z (Sim.backend Sim.healthy) 0
           1 3 vert_lines [GlShaderSource 2 3 frag_lines]).
  reflexivity.
Defined.

(** X20 at the run of [Sim.healthy]. *)
Lemma main_submits_file_text_witness :
  exists vs fs vertexCount fragmentCount vertexStrings fragmentStrings,
    submissions (trace (final (Sim.run Sim.healthy))) =
      [ GlShaderSource vs vertexCount vertexStrings;
        GlShaderSource fs fragmentCount fragmentStrings ]
    /\ concat_all vertexStrings = terminated Sim.vert_text
    /\ concat_all fragmentStrings = terminated Sim.frag_text.
Proof.
  apply (@main_submits_file_text Z (Sim.backend Sim.healthy) 0
           (final (Sim.run Sim.healthy)) Sim.vert_text Sim.frag_text);
    vm_compute; reflexivity.
Defined.

End MoreExamples.

